(** * tfetch: [requestJson] and its status-code validation

    A shallow embedding of [src/api.ts].  The TypeScript module exports one
    function, [requestJson], which merges the caller's parameters with
    [defaultRequestParams], builds the header set and the optional JSON body,
    races [fetch] against a timer and folds every outcome of the promise
    chain into one [IJsonStatus] object.

    What belongs to the platform rather than to the repository (the [Headers]
    container, [JSON.stringify], the transport and the timer) is modelled
    only as far as [requestJson] observes it; each such place says so. *)

From Stdlib Require Import ZArith String Ascii List Bool Lia.
From stdpp Require Import base option gmap strings.

Local Open Scope string_scope.
Local Open Scope Z_scope.
Set Warnings "-register-all".

(** ** JavaScript values *)

(** Values of type [any] that travel through the function: request bodies,
    parsed JSON payloads and rejection reasons.  Numbers are integers here
    (status codes, bounds and delays are); [JsError] is an instance of a
    built-in error class, named by its class. *)
Inductive JsValue : Type :=
| JsUndefined
| JsNull
| JsBool (b : bool)
| JsNumber (n : Z)
| JsString (s : string)
| JsArray (items : list JsValue)
| JsObject (fields : list (string * JsValue))
| JsError (class : string).

(** A value of type [T | undefined]. *)
Inductive maybe (T : Type) : Type :=
| undefined
| defined (x : T).
Arguments undefined {T}.
Arguments defined {T} x.

(** An optional property [k?: T] of an object: [None] when the object has
    no own property [k], [Some undefined] when it has one whose value is
    [undefined], [Some (defined x)] otherwise. *)
Definition optional (T : Type) : Type := option (maybe T).

(** Reading a property, as in [const { k } = o] or [o.k]: an absent
    property reads as [undefined]. *)
Definition get {T : Type} (o : optional T) : maybe T :=
  match o with
  | Some v => v
  | None => undefined
  end.

(** One key of an object spread [{ ...defaults, ...o }] whose default is
    [d]: an own property of [o] wins whatever its value, the default
    stays only when [o] has no such property. *)
Definition spread {T : Type} (d : T) (o : option T) : T :=
  match o with
  | Some v => v
  | None => d
  end.

(** ToBoolean, the conversion behind [if (x)] and [x && y]. *)
Class ToBoolean (T : Type) : Type := truthy : T -> bool.

#[export] Instance bool_truthy : ToBoolean bool := fun b => b.
#[export] Instance number_truthy : ToBoolean Z := fun n => negb (n =? 0).
#[export] Instance array_truthy {A : Type} : ToBoolean (list A) := fun _ => true.
#[export] Instance maybe_truthy {T : Type} `{ToBoolean T} : ToBoolean (maybe T) :=
  fun m =>
    match m with
    | undefined => false
    | defined x => truthy x
    end.
#[export] Instance value_truthy : ToBoolean JsValue :=
  fun v =>
    match v with
    | JsUndefined | JsNull => false
    | JsBool b => b
    | JsNumber n => negb (n =? 0)
    | JsString s => negb (String.eqb s "")
    | JsArray _ | JsObject _ | JsError _ => true
    end.

(** ** The exported types *)

Inductive httpType : Type := GET | POST | PUT | PATCH | DELETE.

Record IExtraHeader : Type := { key : string; value : string }.

Record IRequestBasicParams : Type := {
  body : option JsValue;
  extraHeaders : optional (list IExtraHeader);
  method : optional httpType;
  jsonRequest : optional bool;
  jsonResponse : optional bool;
  url : string;
}.

Record IValidStatusCode : Type := {
  validStatusCodes : optional (list Z);
  validStatusCodeStart : optional Z;
  validStatusCodeEnd : optional Z;
}.

(** [IRequestParams<B> = IRequestBasicParams<B> & IValidStatusCode].  The
    type is structural, so the object a caller passes may carry further
    properties; [excess] holds those, by name.  [requestJson] reads one of
    them, [timeout], which [defaultRequestParams] defines and the interface
    does not declare. *)
Record IRequestParams : Type := {
  basic : IRequestBasicParams;
  validation : IValidStatusCode;
  excess : gmap string JsValue;
}.

(** The response object of the transport, as far as it is used: its
    [status] and what the promise returned by [response.json()] settles
    to. *)
Inductive settled (A : Type) : Type :=
| Fulfilled (a : A)
| Rejected (reason : JsValue).
Arguments Fulfilled {A} a.
Arguments Rejected {A} reason.

Record Response : Type := { status : Z; json : settled JsValue }.

(** What ends up in [data] or [errorData]: a parsed payload or rejection
    reason, or the response object itself when [jsonResponse] is off. *)
Inductive Payload : Type :=
| Value (v : JsValue)
| Raw (r : Response).

(** [IJsonStatus<T, E>]; [None] is a property that was never assigned. *)
Record IJsonStatus : Type := {
  data : option Payload;
  errorData : option Payload;
  networkError : option JsValue;
  statusCode : option Z;
}.

(** ** [defaultRequestParams] and the merge *)

Module Default.
Record t : Type := {
  method : httpType;
  jsonRequest : bool;
  jsonResponse : bool;
  validStatusCodeStart : Z;
  validStatusCodeEnd : Z;
  timeout : Z;
}.
End Default.

Definition defaultRequestParams : Default.t := {|
  Default.method := GET;
  Default.jsonRequest := true;
  Default.jsonResponse := true;
  Default.validStatusCodeStart := 200;
  Default.validStatusCodeEnd := 299;
  Default.timeout := 10000;
|}.

(** The constants destructured from [processedParams]. *)
Module Processed.
Record t : Type := {
  url : string;
  method : maybe httpType;
  body : JsValue;
  extraHeaders : maybe (list IExtraHeader);
  jsonResponse : maybe bool;
  jsonRequest : maybe bool;
  validStatusCodes : maybe (list Z);
  validStatusCodeStart : maybe Z;
  validStatusCodeEnd : maybe Z;
  timeout : JsValue;
}.
End Processed.

(** [const processedParams = { ...defaultRequestParams, ...requestParams }]
    followed by the destructuring: keys with a default go through
    [spread], the others are plain reads ([body], whose type holds
    [undefined] already, reads as [JsUndefined] when absent). *)
Definition processedParams (requestParams : IRequestParams) : Processed.t :=
  let b := basic requestParams in
  let v := validation requestParams in
  let d := defaultRequestParams in
  {|
    Processed.url := url b;
    Processed.method := spread (defined (Default.method d)) (method b);
    Processed.body := spread JsUndefined (body b);
    Processed.extraHeaders := get (extraHeaders b);
    Processed.jsonResponse := spread (defined (Default.jsonResponse d)) (jsonResponse b);
    Processed.jsonRequest := spread (defined (Default.jsonRequest d)) (jsonRequest b);
    Processed.validStatusCodes := get (validStatusCodes v);
    Processed.validStatusCodeStart :=
      spread (defined (Default.validStatusCodeStart d)) (validStatusCodeStart v);
    Processed.validStatusCodeEnd :=
      spread (defined (Default.validStatusCodeEnd d)) (validStatusCodeEnd v);
    Processed.timeout :=
      spread (JsNumber (Default.timeout d)) (excess requestParams !! "timeout");
  |}.

(** ** The platform's [Headers] container *)

(** [new Headers()] is an ordered list of name/value pairs.  [append]
    validates its arguments as the Fetch standard prescribes and throws a
    [TypeError] for a name that is not an HTTP token or a value that holds a
    NUL, CR or LF after its surrounding whitespace was stripped. *)
Definition Headers : Type := list (string * string).

Definition code_in (lo hi : N) (c : ascii) : bool :=
  (lo <=? N_of_ascii c)%N && (N_of_ascii c <=? hi)%N.

Definition is_tchar (c : ascii) : bool :=
  code_in 48 57 c || code_in 65 90 c || code_in 97 122 c
  || existsb (N.eqb (N_of_ascii c))
       [33; 35; 36; 37; 38; 39; 42; 43; 45; 46; 94; 95; 96; 124; 126]%N.

Definition is_http_whitespace (c : ascii) : bool :=
  existsb (N.eqb (N_of_ascii c)) [9; 10; 13; 32]%N.

Definition is_forbidden_in_value (c : ascii) : bool :=
  existsb (N.eqb (N_of_ascii c)) [0; 10; 13]%N.

Fixpoint strip_leading (cs : list ascii) : list ascii :=
  match cs with
  | c :: rest => if is_http_whitespace c then strip_leading rest else cs
  | [] => []
  end.

Definition normalize_value (v : string) : string :=
  string_of_list_ascii
    (rev (strip_leading (rev (strip_leading (list_ascii_of_string v))))).

Definition header_name_ok (name : string) : bool :=
  negb (String.eqb name "") && forallb is_tchar (list_ascii_of_string name).

Definition header_value_ok (v : string) : bool :=
  negb (existsb is_forbidden_in_value (list_ascii_of_string v)).

Definition TypeError : JsValue := JsError "TypeError".

(** [headers.append(name, value)]: the updated container, or the thrown
    error. *)
Definition Headers_append (headers : Headers) (name v : string)
  : JsValue + Headers :=
  let v' := normalize_value v in
  if header_name_ok name && header_value_ok v'
  then inr (headers ++ [(name, v')])%list
  else inl TypeError.

(** [extraHeaders.map(h => headers.append(h.key, h.value))]: the appends
    run in order and the first one that throws ends the loop. *)
Fixpoint append_all (headers : Headers) (hs : list IExtraHeader)
  : JsValue + Headers :=
  match hs with
  | [] => inr headers
  | h :: rest =>
      match Headers_append headers (key h) (value h) with
      | inl e => inl e
      | inr headers' => append_all headers' rest
      end
  end.

(** ** [isNetworkError] and [isValidStatusCode] *)

(** [err === 'timeout' || err === 'other'] *)
Definition isNetworkError (err : JsValue) : bool :=
  match err with
  | JsString s => String.eqb s "timeout" || String.eqb s "other"
  | _ => false
  end.

(** [Array.prototype.find]: the first element the predicate accepts, or
    [undefined]. *)
Fixpoint array_find {A : Type} (f : A -> bool) (xs : list A) : maybe A :=
  match xs with
  | [] => undefined
  | x :: rest => if f x then defined x else array_find f rest
  end.

Definition is_undefined {T : Type} (m : maybe T) : bool :=
  match m with
  | undefined => true
  | defined _ => false
  end.

(** [a >= b] and [a <= b] for a number [a]: a comparison with
    [undefined] is false. *)
Definition number_ge (a : Z) (b : maybe Z) : bool :=
  match b with
  | defined n => a >=? n
  | undefined => false
  end.

Definition number_le (a : Z) (b : maybe Z) : bool :=
  match b with
  | defined n => a <=? n
  | undefined => false
  end.

Definition isValidStatusCode (statusCode : Z) (validation : IValidStatusCode)
  : bool :=
  let validStatusCodes := get (validStatusCodes validation) in
  let validStatusCodeStart := get (validStatusCodeStart validation) in
  let validStatusCodeEnd := get (validStatusCodeEnd validation) in
  match validStatusCodes with
  | defined codes =>
      negb (is_undefined (array_find (fun sc => sc =? statusCode) codes))
  | undefined =>
      if truthy validStatusCodeStart && truthy validStatusCodeEnd
      then number_ge statusCode validStatusCodeStart
           && number_le statusCode validStatusCodeEnd
      else false
  end.

(** ** Synchronous exceptions and the promise chain *)

(** A computation that may throw: [inl e] is [throw e]. *)
Definition throwing (A : Type) : Type := (JsValue + A)%type.

Definition and_then {A B : Type} (r : throwing A) (k : A -> throwing B)
  : throwing B :=
  match r with
  | inl e => inl e
  | inr a => k a
  end.

Notation "'let!' x ':=' r 'in' k" := (and_then r (fun x => k))
  (at level 10, x name, r at level 100, k at level 200, only parsing).

(** [statusResponse] is one object that the handlers of the chain mutate
    and finally return; a handler is a function of its current contents
    that yields the settlement of the promise it returns and the new
    contents. *)
Definition Async (A : Type) : Type := IJsonStatus -> settled A * IJsonStatus.

(** [p.then(f)]: [f] runs on fulfilment, a rejection passes through. *)
Definition then_ {A B : Type} (p : Async A) (f : A -> Async B) : Async B :=
  fun s =>
    match p s with
    | (Fulfilled a, s') => f a s'
    | (Rejected e, s') => (Rejected e, s')
    end.

(** [p.catch(h)]: [h] runs on rejection, a fulfilment passes through. *)
Definition catch_ {A : Type} (p : Async A) (h : JsValue -> Async A) : Async A :=
  fun s =>
    match p s with
    | (Fulfilled a, s') => (Fulfilled a, s')
    | (Rejected e, s') => h e s'
    end.

(** An already settled promise, which leaves [statusResponse] alone. *)
Definition settle {A : Type} (r : settled A) : Async A := fun s => (r, s).

Definition set_statusCode (c : Z) (s : IJsonStatus) : IJsonStatus :=
  {| data := data s; errorData := errorData s;
     networkError := networkError s; statusCode := Some c |}.

Definition set_data (d : Payload) (s : IJsonStatus) : IJsonStatus :=
  {| data := Some d; errorData := errorData s;
     networkError := networkError s; statusCode := statusCode s |}.

Definition set_errorData (d : Payload) (s : IJsonStatus) : IJsonStatus :=
  {| data := data s; errorData := Some d;
     networkError := networkError s; statusCode := statusCode s |}.

Definition set_networkError (e : JsValue) (s : IJsonStatus) : IJsonStatus :=
  {| data := data s; errorData := errorData s;
     networkError := Some e; statusCode := statusCode s |}.

(** [const statusResponse: IJsonStatus<T, E> = {}] *)
Definition empty_status : IJsonStatus :=
  {| data := None; errorData := None; networkError := None; statusCode := None |}.

(** ** The transport and the timer *)

(** [RequestInit], the second argument of [fetch]. *)
Module RequestInit.
Record t : Type := {
  method : maybe httpType;
  headers : Headers;
  body : option string;
}.
End RequestInit.

(** What the promise returned by [fetch] has done by the time the timer
    fires: fulfilled with a response, rejected, or still pending. *)
Inductive Transport : Type :=
| Responds (response : Response)
| Fails (reason : JsValue)
| Hangs.

(** What [requestJson] hands to the platform: the arguments of [fetch]
    and the delay given to [setTimeout]. *)
Record Call : Type := {
  fetch_url : string;
  fetch_params : RequestInit.t;
  timer_delay : JsValue;
}.

(** [Promise.race([fetch(url, params), new Promise((_, reject) =>
    setTimeout(() => reject('timeout'), timeout))])]: the first promise to
    settle decides, and the timer's promise only ever rejects. *)
Definition race (transport : Transport) : settled Response :=
  match transport with
  | Responds response => Fulfilled response
  | Fails reason => Rejected reason
  | Hangs => Rejected (JsString "timeout")
  end.

(** What a call of [requestJson] does: throw, or return a promise, given
    here by its settlement. *)
Inductive Outcome : Type :=
| Throws (e : JsValue)
| Returns (promise : settled IJsonStatus).

(** ** [requestJson] *)

Section RequestJson.

(** The ambient [JSON.stringify].  It is only applied to truthy values,
    and a [JsValue] is a finite tree, so it returns a text: it neither
    throws nor yields [undefined]. *)
Variable JSON_stringify : JsValue -> string.

(** The ambient [fetch], which reports every failure through the promise
    it returns. *)
Variable fetch : string -> RequestInit.t -> Transport.

(** [method === m] *)
Definition method_is (method : maybe httpType) (m : httpType) : bool :=
  match method, m with
  | defined GET, GET | defined POST, POST | defined PUT, PUT
  | defined PATCH, PATCH | defined DELETE, DELETE => true
  | _, _ => false
  end.

(** Lines 72 to 83: the header set. *)
Definition build_headers (p : Processed.t) : throwing Headers :=
  let headers : Headers := [] in
  let! headers :=
    (if truthy (Processed.jsonRequest p)
     then Headers_append headers "Content-Type" "application/json"
     else inr headers) in
  let! headers :=
    (if truthy (Processed.jsonResponse p)
     then Headers_append headers "Accept" "application/json"
     else inr headers) in
  match Processed.extraHeaders p with
  | defined hs => append_all headers hs
  | undefined => inr headers
  end.

(** Lines 84 to 93: [params], with the body attached under the guard
    [body && (method === 'POST' || method === 'PATCH' || method === 'DELETE')]. *)
Definition build_params (p : Processed.t) (headers : Headers) : RequestInit.t :=
  let method := Processed.method p in
  let body := Processed.body p in
  {|
    RequestInit.method := method;
    RequestInit.headers := headers;
    RequestInit.body :=
      if truthy body
         && (method_is method POST || method_is method PATCH
             || method_is method DELETE)
      then Some (JSON_stringify body)
      else None;
  |}.

(** Everything up to [Promise.race]: the calls made to the platform, or
    the exception that escapes before any promise exists. *)
Definition request_setup (requestParams : IRequestParams) : throwing Call :=
  let p := processedParams requestParams in
  let! headers := build_headers p in
  inr {|
    fetch_url := Processed.url p;
    fetch_params := build_params p headers;
    timer_delay := Processed.timeout p;
  |}.

(** The first [then]: record the status, then parse or pass through. *)
Definition on_response (jsonResponse : maybe bool) (response : Response)
  : Async Payload :=
  fun s =>
    let s' := set_statusCode (status response) s in
    if truthy jsonResponse
    then
      match json response with
      | Fulfilled j => (Fulfilled (Value j), s')
      | Rejected e => (Rejected e, s')
      end
    else (Fulfilled (Raw response), s').

(** The object literal
    [{ validStatusCodes, validStatusCodeStart, validStatusCodeEnd }]. *)
Definition validation_of (p : Processed.t) : IValidStatusCode :=
  {| validStatusCodes := Some (Processed.validStatusCodes p);
     validStatusCodeStart := Some (Processed.validStatusCodeStart p);
     validStatusCodeEnd := Some (Processed.validStatusCodeEnd p) |}.

(** The second [then]: classify by status code.  A status that was never
    recorded would read as [undefined], which no test accepts. *)
Definition on_payload (p : Processed.t) (json : Payload) : Async IJsonStatus :=
  fun s =>
    let validStatusCode :=
      match statusCode s with
      | Some c => isValidStatusCode c (validation_of p)
      | None => false
      end in
    let s' := if validStatusCode then set_data json s else set_errorData json s in
    (Fulfilled s', s').

(** The [catch]. *)
Definition on_rejection (err : JsValue) : Async IJsonStatus :=
  fun s =>
    let s' :=
      if isNetworkError err
      then set_networkError err s
      else set_errorData (Value err) s in
    (Fulfilled s', s').

Definition chain (p : Processed.t) (call : Call) : Async IJsonStatus :=
  catch_
    (then_
       (then_ (settle (race (fetch (fetch_url call) (fetch_params call))))
          (on_response (Processed.jsonResponse p)))
       (on_payload p))
    on_rejection.

Definition requestJson (requestParams : IRequestParams) : Outcome :=
  match request_setup requestParams with
  | inl e => Throws e
  | inr call =>
      Returns (fst (chain (processedParams requestParams) call empty_status))
  end.

(** ** Vocabulary of the statements *)

(** The extra headers of a request all pass the checks of
    [Headers_append]. *)
Definition header_ok (h : IExtraHeader) : bool :=
  header_name_ok (key h) && header_value_ok (normalize_value (value h)).

Definition headers_accepted (requestParams : IRequestParams) : bool :=
  match get (extraHeaders (basic requestParams)) with
  | defined hs => forallb header_ok hs
  | undefined => true
  end.

(** How many of [data], [errorData] and [networkError] were assigned. *)
Definition count_set {A : Type} (o : option A) : nat :=
  match o with
  | Some _ => 1
  | None => 0
  end.

Definition assigned (s : IJsonStatus) : nat :=
  (count_set (data s) + count_set (errorData s) + count_set (networkError s))%nat.

(** The status object once a response was received, and after the
    [catch] handler ran on [err]. *)
Definition received (r : Response) : IJsonStatus :=
  set_statusCode (status r) empty_status.

Definition classified (err : JsValue) (s : IJsonStatus) : IJsonStatus :=
  if isNetworkError err then set_networkError err s
  else set_errorData (Value err) s.

(** What the first handler passes on for a response. *)
Definition payload_of (p : Processed.t) (r : Response) : settled Payload :=
  if truthy (Processed.jsonResponse p)
  then match json r with
       | Fulfilled j => Fulfilled (Value j)
       | Rejected e => Rejected e
       end
  else Fulfilled (Raw r).

(** How one defaulted key comes out of the merge, by what the caller's
    object holds for it. *)
Definition merges_as {T : Type} (d : T) (own : optional T) (merged : maybe T)
  : Prop :=
  match own with
  | Some (defined x) => merged = defined x
  | Some undefined => merged = undefined
  | None => merged = defined d
  end.

(** The same request with other undeclared properties. *)
Definition with_excess (more : gmap string JsValue) (requestParams : IRequestParams)
  : IRequestParams :=
  {| basic := basic requestParams; validation := validation requestParams;
     excess := more |}.

(** The methods named by the guard of the body. *)
Definition carries_body (method : maybe httpType) : Prop :=
  method = defined POST \/ method = defined PATCH \/ method = defined DELETE.

(** ** Requests used as instances *)

Definition no_validation : IValidStatusCode :=
  {| validStatusCodes := None; validStatusCodeStart := None;
     validStatusCodeEnd := None |}.

(** [{ url }] *)
Definition just_url (u : string) : IRequestBasicParams :=
  {| body := None; extraHeaders := None; method := None; jsonRequest := None;
     jsonResponse := None; url := u |}.

Definition plain_request : IRequestParams :=
  {| basic := just_url "https://x/y"; validation := no_validation; excess := ∅ |}.

(** [{ url: "https://x/y", method: "POST", body: { a: 1 },
      validStatusCodeStart: 200, validStatusCodeEnd: 299 }] *)
Definition post_request : IRequestParams :=
  {| basic :=
       {| body := Some (JsObject [("a", JsNumber 1)]); extraHeaders := None;
          method := Some (defined POST); jsonRequest := None;
          jsonResponse := None; url := "https://x/y" |};
     validation :=
       {| validStatusCodes := None; validStatusCodeStart := Some (defined 200);
          validStatusCodeEnd := Some (defined 299) |};
     excess := ∅ |}.

(** A response with status 201 whose body parses to [{ ok: true }]. *)
Definition created_response : Response :=
  {| status := 201; json := Fulfilled (JsObject [("ok", JsBool true)]) |}.

(** A response with status 200 and the same body. *)
Definition ok_response : Response :=
  {| status := 200; json := Fulfilled (JsObject [("ok", JsBool true)]) |}.

(** A response with status 500 whose body is not JSON. *)
Definition broken_response : Response :=
  {| status := 500; json := Rejected (JsError "SyntaxError") |}.

(** The status object expected for it. *)
Definition broken_status : IJsonStatus :=
  {| data := None; errorData := Some (Value (JsError "SyntaxError"));
     networkError := None; statusCode := Some 500 |}.

(** [{ url, validStatusCodes: [201] }] *)
Definition only_201_request : IRequestParams :=
  {| basic := just_url "https://x/y";
     validation :=
       {| validStatusCodes := Some (defined [201]); validStatusCodeStart := None;
          validStatusCodeEnd := None |};
     excess := ∅ |}.

(** [{ url, extraHeaders: [{ key: "Content Type", value: "text/plain" }] }]:
    the name holds a space. *)
Definition bad_header_request : IRequestParams :=
  {| basic :=
       {| body := None;
          extraHeaders :=
            Some (defined [{| key := "Content Type"; value := "text/plain" |}]);
          method := None; jsonRequest := None; jsonResponse := None;
          url := "https://x/y" |};
     validation := no_validation; excess := ∅ |}.

(** [{ url, method: "POST", body: v }] *)
Definition post_with (v : JsValue) : IRequestParams :=
  {| basic :=
       {| body := Some v; extraHeaders := None;
          method := Some (defined POST); jsonRequest := None;
          jsonResponse := None; url := "https://x/y" |};
     validation := no_validation; excess := ∅ |}.

(** [{ url, jsonResponse: undefined }] *)
Definition undefined_flag_request : IRequestParams :=
  {| basic :=
       {| body := None; extraHeaders := None; method := None;
          jsonRequest := None; jsonResponse := Some undefined;
          url := "https://x/y" |};
     validation := no_validation; excess := ∅ |}.

(** [{ url, timeoutMs: 5000 }] *)
Definition timeoutMs_request : IRequestParams :=
  {| basic := just_url "https://x/y"; validation := no_validation;
     excess := {[ "timeoutMs" := JsNumber 5000 ]} |}.

(** [{ url, timeout: 5000 }] *)
Definition timeout_request : IRequestParams :=
  {| basic := just_url "https://x/y"; validation := no_validation;
     excess := {[ "timeout" := JsNumber 5000 ]} |}.

(** The headers [requestJson] adds on its own account, and the pair an
    extra header leaves in the container. *)
Definition own_headers (p : Processed.t) : Headers :=
  ((if truthy (Processed.jsonRequest p)
    then [("Content-Type", "application/json")] else [])
   ++ (if truthy (Processed.jsonResponse p)
       then [("Accept", "application/json")] else []))%list.

Definition sent_pair (h : IExtraHeader) : string * string :=
  (key h, normalize_value (value h)).

Definition extra_list (p : Processed.t) : list IExtraHeader :=
  match Processed.extraHeaders p with
  | defined hs => hs
  | undefined => []
  end.

(** [{ url, jsonResponse: false }] *)
Definition raw_request : IRequestParams :=
  {| basic :=
       {| body := None; extraHeaders := None; method := None;
          jsonRequest := None; jsonResponse := Some (defined false);
          url := "https://x/y" |};
     validation := no_validation; excess := ∅ |}.

(** A response with status 200 whose body is not JSON. *)
Definition html_response : Response :=
  {| status := 200; json := Rejected (JsError "SyntaxError") |}.

(** A response with status 404 whose body parses to [{ ok: true }]. *)
Definition not_found_response : Response :=
  {| status := 404; json := Fulfilled (JsObject [("ok", JsBool true)]) |}.

(** [{ url, extraHeaders: [{ key: "Content-Type", value: "text/plain" },
                           { key: "X-Token", value: " abc " }] }] *)
Definition two_headers_request : IRequestParams :=
  {| basic :=
       {| body := None;
          extraHeaders :=
            Some (defined [{| key := "Content-Type"; value := "text/plain" |};
                           {| key := "X-Token"; value := " abc " |}]);
          method := None; jsonRequest := None; jsonResponse := None;
          url := "https://x/y" |};
     validation := no_validation; excess := ∅ |}.

(** [{ url, validStatusCodeStart: undefined }] *)
Definition undefined_start_request : IRequestParams :=
  {| basic := just_url "https://x/y";
     validation :=
       {| validStatusCodes := None; validStatusCodeStart := Some undefined;
          validStatusCodeEnd := None |};
     excess := ∅ |}.

(** The status objects expected for [not_found_response] and for
    [created_response] under the default range, and for a timeout. *)
Definition not_found_status : IJsonStatus :=
  {| data := None; errorData := Some (Value (JsObject [("ok", JsBool true)]));
     networkError := None; statusCode := Some 404 |}.

Definition created_status : IJsonStatus :=
  {| data := Some (Value (JsObject [("ok", JsBool true)])); errorData := None;
     networkError := None; statusCode := Some 201 |}.

Definition timeout_status : IJsonStatus :=
  {| data := None; errorData := None;
     networkError := Some (JsString "timeout"); statusCode := None |}.

(** A serializer and transports to run the instances with. *)
Definition fixed_text (_ : JsValue) : string := "<json text>".

Definition always (t : Transport) : string -> RequestInit.t -> Transport :=
  fun _ _ => t.

(** * Properties *)

(** ** Status-code validation *)

Lemma array_find_eqb (statusCode : Z) (codes : list Z) :
  is_undefined (array_find (fun sc => sc =? statusCode) codes) = false
  <-> In statusCode codes.
Proof.
  induction codes as [|sc rest IH]; simpl.
  - split; [discriminate | tauto].
  - destruct (Z.eqb_spec sc statusCode) as [Heq | Hne]; simpl.
    + split; auto.
    + rewrite IH. split; [auto | intros [Heq | Hin]; [contradiction | exact Hin]].
Qed.

(** C3. With an array of valid codes in the configuration a status code is
    valid exactly when it occurs in the array, whatever the two bounds
    are: present, absent, undefined, or a range that holds the code.  With
    [validStatusCodes = [201]] and the default bounds 200 and 299, 201 is
    valid and 200 is not. *)
Theorem isValidStatusCode_explicit_set :
  (forall (statusCode : Z) (codes : list Z) (lo hi : optional Z),
      isValidStatusCode statusCode
        {| validStatusCodes := Some (defined codes);
           validStatusCodeStart := lo; validStatusCodeEnd := hi |} = true
      <-> In statusCode codes)
  /\ isValidStatusCode 201
       {| validStatusCodes := Some (defined [201]);
          validStatusCodeStart := Some (defined 200);
          validStatusCodeEnd := Some (defined 299) |} = true
  /\ isValidStatusCode 200
       {| validStatusCodes := Some (defined [201]);
          validStatusCodeStart := Some (defined 200);
          validStatusCodeEnd := Some (defined 299) |} = false.
Proof.
  split; [| split; reflexivity].
  intros statusCode codes lo hi. unfold isValidStatusCode; simpl.
  rewrite negb_true_iff. apply array_find_eqb.
Qed.

Lemma truthy_number (m : maybe Z) :
  truthy m = true <-> exists n, m = defined n /\ n <> 0.
Proof.
  destruct m as [|n]; simpl.
  - split; [discriminate | intros (n & Hn & _); discriminate].
  - unfold truthy, maybe_truthy, truthy, number_truthy.
    rewrite negb_true_iff, Z.eqb_neq.
    split.
    + intros Hn. exists n. auto.
    + intros (n' & Hn' & Hnz). injection Hn' as ->. exact Hnz.
Qed.

(** The range test alone. *)
Lemma range_accepts (statusCode : Z) (validation : IValidStatusCode) :
  get (validStatusCodes validation) = undefined ->
  isValidStatusCode statusCode validation = true
  <-> exists lo hi,
       get (validStatusCodeStart validation) = defined lo
       /\ get (validStatusCodeEnd validation) = defined hi
       /\ lo <> 0 /\ hi <> 0 /\ lo <= statusCode <= hi.
Proof.
  intros Hset. unfold isValidStatusCode. rewrite Hset.
  destruct (truthy (get (validStatusCodeStart validation))
            && truthy (get (validStatusCodeEnd validation))) eqn:Hboth.
  - apply andb_true_iff in Hboth as [Hlo Hhi].
    apply truthy_number in Hlo as (lo & -> & Hlo).
    apply truthy_number in Hhi as (hi & -> & Hhi).
    unfold number_ge, number_le. rewrite andb_true_iff, Z.geb_le, Z.leb_le.
    split.
    + intros [? ?]. exists lo, hi. repeat split; assumption.
    + intros (l & h & [= <-] & [= <-] & _ & _ & ? & ?). split; assumption.
  - split; [discriminate |].
    intros (lo & hi & Hlo & Hhi & Hlnz & Hhnz & _).
    apply andb_false_iff in Hboth as [Hf | Hf];
      [rewrite Hlo in Hf | rewrite Hhi in Hf];
      apply not_true_iff_false in Hf; exfalso; apply Hf;
      apply truthy_number; eauto.
Qed.

(** C4. Without a set of valid codes (the property is absent or
    undefined) a status code is valid exactly when both bounds are defined,
    both are non-zero, and the code lies between them; if either bound is
    falsy (absent, undefined or 0) no status code is valid. *)
Theorem isValidStatusCode_range (statusCode : Z) (validation : IValidStatusCode) :
  get (validStatusCodes validation) = undefined ->
  (isValidStatusCode statusCode validation = true
   <-> exists lo hi,
        get (validStatusCodeStart validation) = defined lo
        /\ get (validStatusCodeEnd validation) = defined hi
        /\ lo <> 0 /\ hi <> 0 /\ lo <= statusCode <= hi)
  /\ (truthy (get (validStatusCodeStart validation)) = false
      \/ truthy (get (validStatusCodeEnd validation)) = false ->
      isValidStatusCode statusCode validation = false).
Proof.
  intros Hset. split; [apply range_accepts, Hset |].
  unfold isValidStatusCode. rewrite Hset.
  intros [-> | ->]; [reflexivity | rewrite andb_false_r; reflexivity].
Qed.

(** ** The header set *)

Lemma Headers_append_ok (headers : Headers) (h : IExtraHeader) :
  header_ok h = true ->
  Headers_append headers (key h) (value h)
  = inr (headers ++ [(key h, normalize_value (value h))])%list.
Proof.
  unfold header_ok, Headers_append. intros ->. reflexivity.
Qed.

Lemma Headers_append_throws (headers : Headers) (h : IExtraHeader) :
  header_ok h = false ->
  Headers_append headers (key h) (value h) = inl TypeError.
Proof.
  unfold header_ok, Headers_append. intros ->. reflexivity.
Qed.

Lemma append_all_ok (hs : list IExtraHeader) :
  forallb header_ok hs = true ->
  forall headers, exists headers', append_all headers hs = inr headers'.
Proof.
  induction hs as [|h rest IH]; simpl; intros Hall headers.
  - eauto.
  - apply andb_true_iff in Hall as [Hh Hrest].
    rewrite (Headers_append_ok _ _ Hh). apply IH, Hrest.
Qed.

Lemma append_all_throws (hs : list IExtraHeader) :
  forallb header_ok hs = false ->
  forall headers, append_all headers hs = inl TypeError.
Proof.
  induction hs as [|h rest IH]; simpl; intros Hall headers.
  - discriminate.
  - destruct (header_ok h) eqn:Hh.
    + rewrite (Headers_append_ok _ _ Hh). apply IH, Hall.
    + rewrite (Headers_append_throws _ _ Hh). reflexivity.
Qed.

(** The two headers that [requestJson] adds itself are well formed, so
    the only appends that can throw are those of the extra headers. *)
Lemma build_headers_extra (p : Processed.t) :
  exists headers,
    build_headers p
    = match Processed.extraHeaders p with
      | defined hs => append_all headers hs
      | undefined => inr headers
      end.
Proof.
  unfold build_headers.
  destruct (truthy (Processed.jsonRequest p)), (truthy (Processed.jsonResponse p));
    eexists; reflexivity.
Qed.

Lemma request_setup_accepted (requestParams : IRequestParams) :
  headers_accepted requestParams = true ->
  exists call, request_setup requestParams = inr call.
Proof.
  unfold headers_accepted, request_setup. intros Hok.
  destruct (build_headers_extra (processedParams requestParams)) as [h0 ->].
  simpl. destruct (get (extraHeaders (basic requestParams))) as [|hs].
  - simpl. eauto.
  - destruct (append_all_ok hs Hok h0) as [h' ->]. simpl. eauto.
Qed.

Lemma request_setup_refused (requestParams : IRequestParams) :
  headers_accepted requestParams = false ->
  request_setup requestParams = inl TypeError.
Proof.
  unfold headers_accepted, request_setup. intros Hbad.
  destruct (build_headers_extra (processedParams requestParams)) as [h0 ->].
  simpl. destruct (get (extraHeaders (basic requestParams))) as [|hs].
  - discriminate.
  - rewrite (append_all_throws hs Hbad h0). reflexivity.
Qed.

(** ** Failure handling *)

(** C1, where the code departs from it.  When one of the extra headers is
    refused by [Headers.append], the [TypeError] is raised while the header
    set is built, before the promise chain and its [catch] exist: the call
    throws to its caller and returns no promise at all. *)
Theorem requestJson_throws_on_refused_header (requestParams : IRequestParams) :
  headers_accepted requestParams = false ->
  requestJson requestParams = Throws TypeError.
Proof.
  intros Hbad. unfold requestJson.
  rewrite (request_setup_refused _ Hbad). reflexivity.
Qed.

(** *** The four ways the chain can run *)

Lemma chain_hangs (p : Processed.t) (call : Call) :
  fetch (fetch_url call) (fetch_params call) = Hangs ->
  fst (chain p call empty_status)
  = Fulfilled (set_networkError (JsString "timeout") empty_status).
Proof.
  intros Hnet. unfold chain, catch_, then_, settle. rewrite Hnet. reflexivity.
Qed.

Lemma chain_fails (p : Processed.t) (call : Call) (reason : JsValue) :
  fetch (fetch_url call) (fetch_params call) = Fails reason ->
  fst (chain p call empty_status) = Fulfilled (classified reason empty_status).
Proof.
  intros Hnet. unfold chain, catch_, then_, settle. rewrite Hnet. reflexivity.
Qed.

Lemma chain_unparsed (p : Processed.t) (call : Call) (r : Response) (e : JsValue) :
  fetch (fetch_url call) (fetch_params call) = Responds r ->
  truthy (Processed.jsonResponse p) = true ->
  json r = Rejected e ->
  fst (chain p call empty_status) = Fulfilled (classified e (received r)).
Proof.
  intros Hnet Hjson Hparse. unfold chain, catch_, then_, settle. rewrite Hnet.
  cbn [race]. unfold on_response. rewrite Hjson, Hparse. reflexivity.
Qed.

Lemma chain_payload (p : Processed.t) (call : Call) (r : Response) (d : Payload) :
  fetch (fetch_url call) (fetch_params call) = Responds r ->
  payload_of p r = Fulfilled d ->
  fst (chain p call empty_status)
  = Fulfilled
      (if isValidStatusCode (status r) (validation_of p)
       then set_data d (received r)
       else set_errorData d (received r)).
Proof.
  intros Hnet Hload. unfold chain, catch_, then_, settle. rewrite Hnet.
  cbn [race]. unfold on_response, payload_of in *.
  destruct (truthy (Processed.jsonResponse p)).
  - destruct (json r) as [j | e]; [| discriminate].
    injection Hload as <-. reflexivity.
  - injection Hload as <-. reflexivity.
Qed.

(** Once the calls to the platform are made, the returned promise is
    fulfilled with a status object whatever the transport does. *)
Lemma requestJson_fulfils (requestParams : IRequestParams) (call : Call) :
  request_setup requestParams = inr call ->
  exists s, requestJson requestParams = Returns (Fulfilled s).
Proof.
  intros Hsetup. unfold requestJson. rewrite Hsetup.
  set (p := processedParams requestParams).
  destruct (fetch (fetch_url call) (fetch_params call)) as [r | e |] eqn:Hnet.
  - destruct (payload_of p r) as [d | e] eqn:Hload.
    + rewrite (chain_payload p call r d Hnet Hload). eauto.
    + unfold payload_of in Hload.
      destruct (truthy (Processed.jsonResponse p)) eqn:Hjson; [| discriminate].
      destruct (json r) as [j | e'] eqn:Hparse; [discriminate |].
      rewrite (chain_unparsed p call r e' Hnet Hjson Hparse). eauto.
  - rewrite (chain_fails p call e Hnet). eauto.
  - rewrite (chain_hangs p call Hnet). eauto.
Qed.

(** The returned promise is never rejected. *)
Lemma requestJson_never_rejects (requestParams : IRequestParams) (e : JsValue) :
  requestJson requestParams <> Returns (Rejected e).
Proof.
  unfold requestJson.
  destruct (request_setup requestParams) as [err | call] eqn:Hsetup.
  - discriminate.
  - destruct (requestJson_fulfils requestParams call Hsetup) as [s Hs].
    unfold requestJson in Hs. rewrite Hsetup in Hs. rewrite Hs.
    discriminate.
Qed.

(** With extra headers that the container accepts, the call returns a
    promise and that promise is fulfilled. *)
Lemma requestJson_settles (requestParams : IRequestParams) :
  headers_accepted requestParams = true ->
  exists s, requestJson requestParams = Returns (Fulfilled s).
Proof.
  intros Hok. destruct (request_setup_accepted _ Hok) as [call Hsetup].
  exact (requestJson_fulfils _ call Hsetup).
Qed.

(** C5. When the timer fires while the transport is still pending, the
    returned promise is fulfilled with a status object whose only property
    is [networkError = "timeout"]: no [data], no [errorData] and no
    [statusCode]. *)
Theorem requestJson_timeout (requestParams : IRequestParams) (call : Call) :
  request_setup requestParams = inr call ->
  fetch (fetch_url call) (fetch_params call) = Hangs ->
  requestJson requestParams
  = Returns
      (Fulfilled
         {| data := None; errorData := None;
            networkError := Some (JsString "timeout"); statusCode := None |}).
Proof.
  intros Hsetup Hnet. unfold requestJson. rewrite Hsetup.
  rewrite (chain_hangs _ call Hnet). reflexivity.
Qed.

(** A response whose status the configuration accepts, and whose payload
    could be obtained, ends up in [data]. *)
Lemma requestJson_valid_response
    (requestParams : IRequestParams) (call : Call) (r : Response) (d : Payload) :
  request_setup requestParams = inr call ->
  fetch (fetch_url call) (fetch_params call) = Responds r ->
  payload_of (processedParams requestParams) r = Fulfilled d ->
  isValidStatusCode (status r) (validation_of (processedParams requestParams))
  = true ->
  requestJson requestParams
  = Returns
      (Fulfilled
         {| data := Some d; errorData := None; networkError := None;
            statusCode := Some (status r) |}).
Proof.
  intros Hsetup Hnet Hload Hvalid. unfold requestJson. rewrite Hsetup.
  rewrite (chain_payload _ call r d Hnet Hload), Hvalid. reflexivity.
Qed.

(** Its counterpart for a status that is not accepted. *)
Lemma requestJson_invalid_response
    (requestParams : IRequestParams) (call : Call) (r : Response) (d : Payload) :
  request_setup requestParams = inr call ->
  fetch (fetch_url call) (fetch_params call) = Responds r ->
  payload_of (processedParams requestParams) r = Fulfilled d ->
  isValidStatusCode (status r) (validation_of (processedParams requestParams))
  = false ->
  requestJson requestParams
  = Returns
      (Fulfilled
         {| data := None; errorData := Some d; networkError := None;
            statusCode := Some (status r) |}).
Proof.
  intros Hsetup Hnet Hload Hvalid. unfold requestJson. rewrite Hsetup.
  rewrite (chain_payload _ call r d Hnet Hload), Hvalid. reflexivity.
Qed.

(** C2, amended.  Take a request without a set of valid codes, whose
    merged [jsonResponse] is true and whose merged bounds are both non-zero.
    If the transport answers before the timer with a status between the
    bounds and a body that parses, the result holds the parsed body in
    [data] and the status in [statusCode], and nothing else. *)
Theorem requestJson_success_in_range
    (requestParams : IRequestParams) (call : Call) (r : Response)
    (j : JsValue) (lo hi : Z) :
  let p := processedParams requestParams in
  request_setup requestParams = inr call ->
  fetch (fetch_url call) (fetch_params call) = Responds r ->
  json r = Fulfilled j ->
  Processed.jsonResponse p = defined true ->
  Processed.validStatusCodes p = undefined ->
  Processed.validStatusCodeStart p = defined lo ->
  Processed.validStatusCodeEnd p = defined hi ->
  lo <> 0 -> hi <> 0 -> lo <= status r <= hi ->
  requestJson requestParams
  = Returns
      (Fulfilled
         {| data := Some (Value j); errorData := None; networkError := None;
            statusCode := Some (status r) |}).
Proof.
  intros p Hsetup Hnet Hparse Hjson Hset Hlo Hhi Hlnz Hhnz Hin.
  apply (requestJson_valid_response requestParams call r (Value j) Hsetup Hnet).
  - fold p. unfold payload_of. rewrite Hjson, Hparse. reflexivity.
  - fold p.
    apply (range_accepts (status r) (validation_of p) Hset).
    exists lo, hi. repeat split; try assumption; lia.
Qed.

(** C8. In every status object that [requestJson] returns at most one of
    [data], [errorData] and [networkError] is assigned, and [statusCode] is
    the status of the response whenever the transport delivered one, also
    when parsing its body failed or its status was not accepted. *)
Theorem requestJson_status_invariant
    (requestParams : IRequestParams) (call : Call) (s : IJsonStatus) :
  request_setup requestParams = inr call ->
  requestJson requestParams = Returns (Fulfilled s) ->
  (assigned s <= 1)%nat
  /\ (forall r,
        fetch (fetch_url call) (fetch_params call) = Responds r ->
        statusCode s = Some (status r)).
Proof.
  intros Hsetup. unfold requestJson. rewrite Hsetup.
  set (p := processedParams requestParams).
  destruct (fetch (fetch_url call) (fetch_params call)) as [r | e |] eqn:Hnet.
  - destruct (payload_of p r) as [d | e] eqn:Hload.
    + rewrite (chain_payload p call r d Hnet Hload). intros [= <-].
      split; [| intros r' [= <-]];
        destruct (isValidStatusCode (status r) (validation_of p));
        cbn; auto.
    + unfold payload_of in Hload.
      destruct (truthy (Processed.jsonResponse p)) eqn:Hjson; [| discriminate].
      destruct (json r) as [j | e'] eqn:Hparse; [discriminate |].
      rewrite (chain_unparsed p call r e' Hnet Hjson Hparse). intros [= <-].
      split; [| intros r' [= <-]];
        unfold classified; destruct (isNetworkError e'); cbn; auto.
  - rewrite (chain_fails p call e Hnet). intros [= <-].
    split; [| discriminate].
    unfold classified; destruct (isNetworkError e); cbn; auto.
  - rewrite (chain_hangs p call Hnet). intros [= <-].
    split; [cbn; auto | discriminate].
Qed.

(** ** The merge with the defaults *)

(** C7, amended.  The merge goes key by key on the presence of the
    property: a property the caller's object has overrides the default with
    its value, be that value defined or [undefined], and the default is
    used only for a property the object does not have. *)
Theorem processedParams_merge (requestParams : IRequestParams) :
  let b := basic requestParams in
  let v := validation requestParams in
  let p := processedParams requestParams in
  merges_as GET (method b) (Processed.method p)
  /\ merges_as true (jsonRequest b) (Processed.jsonRequest p)
  /\ merges_as true (jsonResponse b) (Processed.jsonResponse p)
  /\ merges_as 200 (validStatusCodeStart v) (Processed.validStatusCodeStart p)
  /\ merges_as 299 (validStatusCodeEnd v) (Processed.validStatusCodeEnd p).
Proof.
  destruct requestParams as [[bd eh m jq jr u] [codes lo hi] ex]; cbn.
  repeat split;
    match goal with
    | |- merges_as _ ?own _ => destruct own as [[|?]|]; reflexivity
    end.
Qed.

(** ** The calls made to the platform *)

Lemma request_setup_inv (requestParams : IRequestParams) (call : Call) :
  request_setup requestParams = inr call ->
  exists headers,
    build_headers (processedParams requestParams) = inr headers
    /\ call
       = {| fetch_url := Processed.url (processedParams requestParams);
            fetch_params := build_params (processedParams requestParams) headers;
            timer_delay := Processed.timeout (processedParams requestParams) |}.
Proof.
  unfold request_setup.
  destruct (build_headers (processedParams requestParams)) as [e | headers];
    simpl; [discriminate |].
  intros [= <-]. eauto.
Qed.

Lemma method_is_true (method : maybe httpType) (m : httpType) :
  method_is method m = true <-> method = defined m.
Proof.
  destruct method as [|[]], m; simpl; split; congruence.
Qed.

Lemma guard_carries_body (method : maybe httpType) :
  method_is method POST || method_is method PATCH || method_is method DELETE
  = true <-> carries_body method.
Proof.
  unfold carries_body. rewrite !orb_true_iff, !method_is_true. tauto.
Qed.

(** C6, amended.  The outgoing request has a body exactly when the merged
    [body] is truthy and the merged method is POST, PATCH or DELETE; the
    body is then the JSON text of that value.  With GET or PUT nothing is
    attached. *)
Theorem body_attached_iff (requestParams : IRequestParams) (call : Call) :
  let p := processedParams requestParams in
  let sent := RequestInit.body (fetch_params call) in
  request_setup requestParams = inr call ->
  (is_Some sent
   <-> truthy (Processed.body p) = true /\ carries_body (Processed.method p))
  /\ (forall text, sent = Some text -> text = JSON_stringify (Processed.body p))
  /\ (Processed.method p = defined GET \/ Processed.method p = defined PUT ->
      sent = None).
Proof.
  intros p sent Hsetup.
  destruct (request_setup_inv _ _ Hsetup) as (headers & _ & ->).
  subst sent. fold p. cbn [fetch_params build_params RequestInit.body].
  set (guard := truthy (Processed.body p)
                && (method_is (Processed.method p) POST
                    || method_is (Processed.method p) PATCH
                    || method_is (Processed.method p) DELETE)).
  assert (Hguard : guard = true
                   <-> truthy (Processed.body p) = true
                       /\ carries_body (Processed.method p)).
  { unfold guard. rewrite andb_true_iff, guard_carries_body. tauto. }
  destruct guard.
  - destruct (proj1 Hguard eq_refl) as [Hbody Hmethod].
    split; [| split].
    + split; [auto | intros _; eexists; reflexivity].
    + intros text [= <-]. reflexivity.
    + unfold carries_body in Hmethod.
      intros [Hm | Hm]; rewrite Hm in Hmethod;
        destruct Hmethod as [? | [? | ?]]; discriminate.
  - split; [| split].
    + split.
      * intros [text Htext]. discriminate.
      * intros Hboth. apply Hguard in Hboth. discriminate.
    + discriminate.
    + reflexivity.
Qed.

(** C10. A body that is defined but falsy, such as [0], the empty string
    or [false], is not attached, whatever the method: the guard tests the
    truthiness of the body and not the presence of the property. *)
Theorem falsy_body_not_attached
    (requestParams : IRequestParams) (call : Call) (v : JsValue) :
  request_setup requestParams = inr call ->
  body (basic requestParams) = Some v ->
  v <> JsUndefined ->
  truthy v = false ->
  RequestInit.body (fetch_params call) = None.
Proof.
  intros Hsetup Hbody _ Hfalsy.
  destruct (request_setup_inv _ _ Hsetup) as (headers & _ & ->).
  cbn [fetch_params build_params RequestInit.body processedParams Processed.body].
  rewrite Hbody. cbn [spread]. rewrite Hfalsy. reflexivity.
Qed.

Lemma processedParams_timeoutMs (requestParams : IRequestParams) (v : JsValue) :
  processedParams
    (with_excess (<["timeoutMs" := v]> (excess requestParams)) requestParams)
  = processedParams requestParams.
Proof.
  unfold processedParams, with_excess. cbn [basic validation excess].
  rewrite lookup_insert_ne by discriminate. reflexivity.
Qed.

(** C9, amended.  The delay handed to [setTimeout] is the value of the
    caller's [timeout] property when the object has one and 10000
    otherwise; a [timeoutMs] property is never read, and adding one leaves
    every call made to the platform as it was. *)
Theorem timer_delay_from_timeout (requestParams : IRequestParams) (call : Call) :
  request_setup requestParams = inr call ->
  timer_delay call
  = match excess requestParams !! "timeout" with
    | Some v => v
    | None => JsNumber 10000
    end
  /\ (forall v,
        request_setup
          (with_excess (<["timeoutMs" := v]> (excess requestParams)) requestParams)
        = inr call).
Proof.
  intros Hsetup. split.
  - destruct (request_setup_inv _ _ Hsetup) as (headers & _ & ->). reflexivity.
  - intros v. unfold request_setup in *.
    rewrite processedParams_timeoutMs. exact Hsetup.
Qed.

(** * Further properties of [requestJson] *)

(** ** Every way a returned status object can come about *)

Lemma requestJson_cases (requestParams : IRequestParams) (s : IJsonStatus) :
  requestJson requestParams = Returns (Fulfilled s) ->
  exists call,
    request_setup requestParams = inr call
    /\ let t := fetch (fetch_url call) (fetch_params call) in
       let p := processedParams requestParams in
       (t = Hangs /\ s = set_networkError (JsString "timeout") empty_status)
       \/ (exists e, t = Fails e /\ s = classified e empty_status)
       \/ (exists r e,
             t = Responds r /\ truthy (Processed.jsonResponse p) = true
             /\ json r = Rejected e /\ s = classified e (received r))
       \/ (exists r d,
             t = Responds r /\ payload_of p r = Fulfilled d
             /\ s = if isValidStatusCode (status r) (validation_of p)
                    then set_data d (received r)
                    else set_errorData d (received r)).
Proof.
  unfold requestJson.
  destruct (request_setup requestParams) as [err | call] eqn:Hsetup;
    [discriminate |].
  intros Hrun. exists call. split; [reflexivity |]. cbv zeta.
  set (p := processedParams requestParams) in *.
  destruct (fetch (fetch_url call) (fetch_params call)) as [r | e |] eqn:Hnet.
  - destruct (payload_of p r) as [d | e] eqn:Hload.
    + rewrite (chain_payload p call r d Hnet Hload) in Hrun.
      injection Hrun as <-. right; right; right. exists r, d. auto.
    + unfold payload_of in Hload.
      destruct (truthy (Processed.jsonResponse p)) eqn:Hjson; [| discriminate].
      destruct (json r) as [j | e'] eqn:Hparse; [discriminate |].
      rewrite (chain_unparsed p call r e' Hnet Hjson Hparse) in Hrun.
      injection Hrun as <-. right; right; left. exists r, e'. auto.
  - rewrite (chain_fails p call e Hnet) in Hrun. injection Hrun as <-.
    right; left. exists e. auto.
  - rewrite (chain_hangs p call Hnet) in Hrun. injection Hrun as <-.
    left. auto.
Qed.

Lemma isNetworkError_literal (err : JsValue) :
  isNetworkError err = true
  <-> err = JsString "timeout" \/ err = JsString "other".
Proof.
  destruct err as [| | b | n | str | xs | fs | c]; simpl;
    try (split; [discriminate | intros [? | ?]; discriminate]).
  rewrite orb_true_iff, !String.eqb_eq.
  split; intros [H | H]; [left | right | left | right]; congruence.
Qed.

Lemma classified_assigned (e : JsValue) (s : IJsonStatus) :
  assigned s = 0%nat -> assigned (classified e s) = 1%nat.
Proof.
  unfold classified, assigned. destruct s as [[d|] [ed|] [ne|] sc]; cbn;
    try discriminate.
  intros _. destruct (isNetworkError e); reflexivity.
Qed.

(** ** How failures are reported *)

(** X1. When the transport rejects before the timer fires, the result
    carries no [statusCode] and no [data]; the reason sits in
    [networkError] if it is one of the strings ["timeout"] and ["other"],
    and in [errorData] otherwise. *)
Theorem requestJson_transport_failure
    (requestParams : IRequestParams) (call : Call) (reason : JsValue) :
  request_setup requestParams = inr call ->
  fetch (fetch_url call) (fetch_params call) = Fails reason ->
  requestJson requestParams
  = Returns
      (Fulfilled
         (if isNetworkError reason
          then {| data := None; errorData := None;
                  networkError := Some reason; statusCode := None |}
          else {| data := None; errorData := Some (Value reason);
                  networkError := None; statusCode := None |})).
Proof.
  intros Hsetup Hnet. unfold requestJson. rewrite Hsetup.
  rewrite (chain_fails _ call reason Hnet). unfold classified.
  destruct (isNetworkError reason); reflexivity.
Qed.

(** X2. A response whose body does not parse, in a request that asks for
    JSON, is an error whatever its status: the [statusCode] is kept, [data]
    stays unassigned, and the parser's rejection is reported like a
    transport failure. *)
Theorem requestJson_unparsable_body
    (requestParams : IRequestParams) (call : Call) (r : Response) (e : JsValue) :
  request_setup requestParams = inr call ->
  fetch (fetch_url call) (fetch_params call) = Responds r ->
  truthy (Processed.jsonResponse (processedParams requestParams)) = true ->
  json r = Rejected e ->
  requestJson requestParams
  = Returns
      (Fulfilled
         (if isNetworkError e
          then {| data := None; errorData := None;
                  networkError := Some e; statusCode := Some (status r) |}
          else {| data := None; errorData := Some (Value e);
                  networkError := None; statusCode := Some (status r) |})).
Proof.
  intros Hsetup Hnet Hjson Hparse. unfold requestJson. rewrite Hsetup.
  rewrite (chain_unparsed _ call r e Hnet Hjson Hparse). unfold classified.
  destruct (isNetworkError e); reflexivity.
Qed.

(** X3. A parsed response whose status the configuration does not accept
    puts the parsed body in [errorData], leaves [data] and [networkError]
    unassigned and keeps the status. *)
Theorem requestJson_rejected_status
    (requestParams : IRequestParams) (call : Call) (r : Response) (j : JsValue) :
  let p := processedParams requestParams in
  request_setup requestParams = inr call ->
  fetch (fetch_url call) (fetch_params call) = Responds r ->
  truthy (Processed.jsonResponse p) = true ->
  json r = Fulfilled j ->
  isValidStatusCode (status r) (validation_of p) = false ->
  requestJson requestParams
  = Returns
      (Fulfilled
         {| data := None; errorData := Some (Value j); networkError := None;
            statusCode := Some (status r) |}).
Proof.
  intros p Hsetup Hnet Hjson Hparse Hvalid. unfold requestJson. rewrite Hsetup.
  fold p. rewrite (chain_payload p call r (Value j) Hnet), Hvalid; [reflexivity |].
  unfold payload_of. rewrite Hjson, Hparse. reflexivity.
Qed.

(** X4. With a falsy merged [jsonResponse] the body is never parsed: the
    response object itself is the payload, in [data] when its status is
    accepted and in [errorData] when it is not, whether or not the body
    would have parsed. *)
Theorem requestJson_raw_response
    (requestParams : IRequestParams) (call : Call) (r : Response) :
  let p := processedParams requestParams in
  request_setup requestParams = inr call ->
  fetch (fetch_url call) (fetch_params call) = Responds r ->
  truthy (Processed.jsonResponse p) = false ->
  requestJson requestParams
  = Returns
      (Fulfilled
         (if isValidStatusCode (status r) (validation_of p)
          then {| data := Some (Raw r); errorData := None;
                  networkError := None; statusCode := Some (status r) |}
          else {| data := None; errorData := Some (Raw r);
                  networkError := None; statusCode := Some (status r) |})).
Proof.
  intros p Hsetup Hnet Hjson. unfold requestJson. rewrite Hsetup. fold p.
  rewrite (chain_payload p call r (Raw r) Hnet).
  - destruct (isValidStatusCode (status r) (validation_of p)); reflexivity.
  - unfold payload_of. rewrite Hjson. reflexivity.
Qed.

(** ** The outgoing headers *)

Lemma append_all_inr (hs : list IExtraHeader) :
  forall headers headers',
    append_all headers hs = inr headers' ->
    headers' = (headers ++ map sent_pair hs)%list.
Proof.
  induction hs as [|h rest IH]; simpl; intros headers headers' Hall.
  - injection Hall as <-. symmetry. apply app_nil_r.
  - destruct (header_ok h) eqn:Hh.
    + rewrite (Headers_append_ok _ _ Hh) in Hall.
      rewrite (IH _ _ Hall), <- app_assoc. reflexivity.
    + rewrite (Headers_append_throws _ _ Hh) in Hall. discriminate.
Qed.

Lemma build_headers_inr (p : Processed.t) (headers : Headers) :
  build_headers p = inr headers ->
  headers = (own_headers p ++ map sent_pair (extra_list p))%list.
Proof.
  unfold build_headers, own_headers, extra_list.
  destruct (truthy (Processed.jsonRequest p)),
    (truthy (Processed.jsonResponse p));
    cbn [and_then Headers_append];
    (destruct (Processed.extraHeaders p) as [|hs];
     [ intros [= <-]; symmetry; apply app_nil_r
     | intros Hall; apply append_all_inr in Hall; exact Hall ]).
Qed.



(** ** What a returned status object tells *)

(** X7. Every returned status object has exactly one of [data],
    [errorData] and [networkError] assigned. *)
Theorem requestJson_exactly_one (requestParams : IRequestParams) (s : IJsonStatus) :
  requestJson requestParams = Returns (Fulfilled s) ->
  assigned s = 1%nat.
Proof.
  intros Hrun.
  destruct (requestJson_cases _ _ Hrun) as (call & _ & Hcases). cbv zeta in Hcases.
  destruct Hcases as [[_ ->] | [(e & _ & ->) | [(r & e & _ & _ & _ & ->)
                     | (r & d & _ & _ & ->)]]].
  - reflexivity.
  - apply classified_assigned. reflexivity.
  - apply classified_assigned. reflexivity.
  - destruct (isValidStatusCode _ _); reflexivity.
Qed.

Lemma classified_statusCode (e : JsValue) (s : IJsonStatus) :
  statusCode (classified e s) = statusCode s.
Proof.
  unfold classified. destruct (isNetworkError e); reflexivity.
Qed.

(** X8. A [statusCode] in the result always is the status of a response
    that the transport delivered before the timer fired: a timeout or a
    transport failure never carries one. *)
Theorem requestJson_statusCode_origin
    (requestParams : IRequestParams) (s : IJsonStatus) (c : Z) :
  requestJson requestParams = Returns (Fulfilled s) ->
  statusCode s = Some c ->
  exists call r,
    request_setup requestParams = inr call
    /\ fetch (fetch_url call) (fetch_params call) = Responds r
    /\ status r = c.
Proof.
  intros Hrun Hcode.
  destruct (requestJson_cases _ _ Hrun) as (call & Hsetup & Hcases).
  cbv zeta in Hcases. exists call.
  destruct Hcases as [[_ ->] | [(e & _ & ->) | [(r & e & Hnet & _ & _ & ->)
                     | (r & d & Hnet & _ & ->)]]].
  - discriminate.
  - rewrite classified_statusCode in Hcode. discriminate.
  - rewrite classified_statusCode in Hcode. injection Hcode as <-. eauto.
  - exists r. repeat split; try assumption.
    destruct (isValidStatusCode _ _); injection Hcode as <-; reflexivity.
Qed.

Lemma classified_networkError (e' e : JsValue) (s : IJsonStatus) :
  networkError s = None ->
  networkError (classified e' s) = Some e ->
  e = e' /\ isNetworkError e = true.
Proof.
  unfold classified. intros Hnone.
  destruct (isNetworkError e') eqn:Hne; cbn; [| congruence].
  intros [= <-]. auto.
Qed.

(** X9. A [networkError] in the result is one of the strings ["timeout"]
    and ["other"].  The function itself only produces ["timeout"], when the
    timer wins; any other [networkError], so every ["other"], is the very
    value with which the transport or the body parser rejected. *)
Theorem requestJson_networkError_origin
    (requestParams : IRequestParams) (s : IJsonStatus) (e : JsValue) :
  requestJson requestParams = Returns (Fulfilled s) ->
  networkError s = Some e ->
  (e = JsString "timeout" \/ e = JsString "other")
  /\ exists call,
      request_setup requestParams = inr call
      /\ let t := fetch (fetch_url call) (fetch_params call) in
         (t = Hangs /\ e = JsString "timeout")
         \/ t = Fails e
         \/ (exists r, t = Responds r /\ json r = Rejected e).
Proof.
  intros Hrun Herr.
  destruct (requestJson_cases _ _ Hrun) as (call & Hsetup & Hcases).
  cbv zeta in Hcases.
  destruct Hcases as [[Hnet ->] | [(e' & Hnet & ->) | [(r & e' & Hnet & _ & Hparse & ->)
                     | (r & d & _ & _ & ->)]]].
  - injection Herr as <-. split; [auto |]. exists call. auto.
  - apply classified_networkError in Herr as [-> Hlit]; [| reflexivity].
    split; [apply isNetworkError_literal, Hlit |]. exists call. auto.
  - apply classified_networkError in Herr as [-> Hlit]; [| reflexivity].
    split; [apply isNetworkError_literal, Hlit |]. exists call.
    split; [assumption |]. right; right. eauto.
  - destruct (isValidStatusCode _ _); discriminate.
Qed.

(** X10. A result with [data] is a success: the transport delivered a
    response whose status the configuration accepts, [data] is the parsed
    body (or the response itself when the body is not to be parsed),
    [statusCode] is that status and neither error property is assigned. *)
Theorem requestJson_data_means_success
    (requestParams : IRequestParams) (s : IJsonStatus) (d : Payload) :
  let p := processedParams requestParams in
  requestJson requestParams = Returns (Fulfilled s) ->
  data s = Some d ->
  exists call r,
    request_setup requestParams = inr call
    /\ fetch (fetch_url call) (fetch_params call) = Responds r
    /\ isValidStatusCode (status r) (validation_of p) = true
    /\ ((truthy (Processed.jsonResponse p) = true
         /\ exists j, json r = Fulfilled j /\ d = Value j)
        \/ (truthy (Processed.jsonResponse p) = false /\ d = Raw r))
    /\ s = {| data := Some d; errorData := None; networkError := None;
              statusCode := Some (status r) |}.
Proof.
  intros p Hrun Hdata.
  destruct (requestJson_cases _ _ Hrun) as (call & Hsetup & Hcases).
  cbv zeta in Hcases. fold p in Hcases. exists call.
  destruct Hcases as [[_ ->] | [(e & _ & ->) | [(r & e & _ & _ & _ & ->)
                     | (r & d' & Hnet & Hload & ->)]]].
  - discriminate.
  - unfold classified in Hdata. destruct (isNetworkError e); discriminate.
  - unfold classified in Hdata. destruct (isNetworkError e); discriminate.
  - exists r.
    destruct (isValidStatusCode (status r) (validation_of p)) eqn:Hvalid;
      [| discriminate].
    injection Hdata as <-.
    split; [assumption |]. split; [assumption |]. split; [reflexivity |].
    split; [| reflexivity].
    unfold payload_of in Hload.
    destruct (truthy (Processed.jsonResponse p)).
    + left. split; [reflexivity |].
      destruct (json r) as [j | e]; [| discriminate].
      injection Hload as <-. eauto.
    + right. injection Hload as <-. auto.
Qed.

(** ** The defaults at work *)

(** X11. A request that sets none of the three validation properties
    accepts exactly the statuses from 200 to 299, both included: a parsed
    response lands in [data] inside that range and in [errorData] outside
    it. *)
Theorem requestJson_default_range
    (requestParams : IRequestParams) (call : Call) (r : Response) (j : JsValue) :
  request_setup requestParams = inr call ->
  fetch (fetch_url call) (fetch_params call) = Responds r ->
  truthy (Processed.jsonResponse (processedParams requestParams)) = true ->
  json r = Fulfilled j ->
  validation requestParams = no_validation ->
  requestJson requestParams
  = Returns
      (Fulfilled
         (if (200 <=? status r) && (status r <=? 299)
          then {| data := Some (Value j); errorData := None;
                  networkError := None; statusCode := Some (status r) |}
          else {| data := None; errorData := Some (Value j);
                  networkError := None; statusCode := Some (status r) |})).
Proof.
  intros Hsetup Hnet Hjson Hparse Hnone. unfold requestJson. rewrite Hsetup.
  set (p := processedParams requestParams) in *.
  rewrite (chain_payload p call r (Value j) Hnet)
    by (unfold payload_of; rewrite Hjson, Hparse; reflexivity).
  assert (Hvalid : isValidStatusCode (status r) (validation_of p)
                   = (200 <=? status r) && (status r <=? 299)).
  { unfold p, validation_of, processedParams. rewrite Hnone.
    unfold isValidStatusCode. cbn. rewrite Z.geb_leb. reflexivity. }
  rewrite Hvalid. destruct ((200 <=? status r) && (status r <=? 299)); reflexivity.
Qed.

(** X12. Without a set of valid codes, a bound that the caller's object
    holds with a falsy value ([undefined] or 0) switches the range test off
    altogether: the default does not step in, and every parsed response
    ends in [errorData], whatever its status. *)
Theorem requestJson_falsy_bound
    (requestParams : IRequestParams) (call : Call) (r : Response) (j : JsValue) :
  let v := validation requestParams in
  request_setup requestParams = inr call ->
  fetch (fetch_url call) (fetch_params call) = Responds r ->
  truthy (Processed.jsonResponse (processedParams requestParams)) = true ->
  json r = Fulfilled j ->
  get (validStatusCodes v) = undefined ->
  (exists b, validStatusCodeStart v = Some b /\ truthy b = false)
  \/ (exists b, validStatusCodeEnd v = Some b /\ truthy b = false) ->
  requestJson requestParams
  = Returns
      (Fulfilled
         {| data := None; errorData := Some (Value j); networkError := None;
            statusCode := Some (status r) |}).
Proof.
  intros v Hsetup Hnet Hjson Hparse Hset Hfalsy.
  apply (requestJson_invalid_response requestParams call r (Value j) Hsetup Hnet).
  - unfold payload_of. rewrite Hjson, Hparse. reflexivity.
  - unfold isValidStatusCode, validation_of, processedParams.
    cbn [get validStatusCodes validStatusCodeStart validStatusCodeEnd
           Processed.validStatusCodes Processed.validStatusCodeStart
           Processed.validStatusCodeEnd].
    fold v. rewrite Hset.
    destruct Hfalsy as [(b & -> & Hb) | (b & -> & Hb)]; cbn [spread];
      rewrite Hb; [reflexivity | rewrite andb_false_r; reflexivity].
Qed.

End RequestJson.

(** * Instances on concrete requests *)

(** The request of C1 that fails: an extra header named ["Content Type"]
    makes the call throw, whatever the transport would have done. *)
Lemma bad_header_request_throws :
  headers_accepted bad_header_request = false
  /\ requestJson fixed_text (always Hangs) bad_header_request = Throws TypeError.
Proof.
  split; [reflexivity |].
  apply requestJson_throws_on_refused_header. reflexivity.
Defined.

(** C2 as stated fails: with [validStatusCodes = [201]] a response with
    status 200, inside the default range 200 to 299, and a JSON body lands
    in [errorData], although [jsonResponse] is true. *)
Lemma in_range_status_outside_set :
  200 <= status ok_response <= 299
  /\ Processed.jsonResponse (processedParams only_201_request) = defined true
  /\ requestJson fixed_text (always (Responds ok_response)) only_201_request
     = Returns
         (Fulfilled
            {| data := None;
               errorData := Some (Value (JsObject [("ok", JsBool true)]));
               networkError := None; statusCode := Some 200 |}).
Proof.
  split; [simpl; lia |]. split; reflexivity.
Qed.

(** The worked example: POST with body [{ a: 1 }] and the range 200 to 299
    against a transport that answers 201 with [{ "ok": true }]. *)
Lemma worked_example :
  requestJson fixed_text (always (Responds created_response)) post_request
  = Returns
      (Fulfilled
         {| data := Some (Value (JsObject [("ok", JsBool true)]));
            errorData := None; networkError := None; statusCode := Some 201 |}).
Proof.
  eapply (requestJson_success_in_range fixed_text
            (always (Responds created_response)) post_request _
            created_response _ 200 299);
    [reflexivity | reflexivity | reflexivity | reflexivity | reflexivity
    | reflexivity | reflexivity | lia | lia | simpl; lia].
Defined.

(** A lower bound of 0 counts as no bound: 100 lies between 0 and 299 and
    is not valid. *)
Lemma zero_bound_rejects :
  isValidStatusCode 100
    {| validStatusCodes := None; validStatusCodeStart := Some (defined 0);
       validStatusCodeEnd := Some (defined 299) |} = false.
Proof.
  refine (proj2 (isValidStatusCode_range 100 _ _) _); [reflexivity |].
  left. reflexivity.
Defined.

Lemma plain_request_times_out :
  requestJson fixed_text (always Hangs) plain_request
  = Returns
      (Fulfilled
         {| data := None; errorData := None;
            networkError := Some (JsString "timeout"); statusCode := None |}).
Proof.
  eapply requestJson_timeout; reflexivity.
Defined.

(** C6 as stated fails: the body [0] of a POST request is present and is
    not attached. *)
Lemma present_body_not_attached :
  body (basic (post_with (JsNumber 0))) = Some (JsNumber 0)
  /\ method (basic (post_with (JsNumber 0))) = Some (defined POST)
  /\ exists call,
      request_setup fixed_text (post_with (JsNumber 0)) = inr call
      /\ RequestInit.body (fetch_params call) = None.
Proof.
  split; [reflexivity |]. split; [reflexivity |].
  eexists. split; reflexivity.
Qed.

Lemma post_request_body_attached :
  exists call,
    request_setup fixed_text post_request = inr call
    /\ is_Some (RequestInit.body (fetch_params call)).
Proof.
  eexists. split; [reflexivity |].
  refine (proj2 (proj1 (body_attached_iff fixed_text post_request _ eq_refl)) _).
  split; [reflexivity | left; reflexivity].
Defined.

(** C7 as stated fails: [jsonResponse: undefined] overrides the default
    [true], so no [Accept] header is sent and the response is passed
    through unparsed. *)
Lemma explicit_undefined_overrides :
  jsonResponse (basic undefined_flag_request) = Some undefined
  /\ Processed.jsonResponse (processedParams undefined_flag_request) = undefined
  /\ (exists call,
        request_setup fixed_text undefined_flag_request = inr call
        /\ RequestInit.headers (fetch_params call)
           = [("Content-Type", "application/json")])
  /\ requestJson fixed_text (always (Responds ok_response)) undefined_flag_request
     = Returns
         (Fulfilled
            {| data := Some (Raw ok_response); errorData := None;
               networkError := None; statusCode := Some 200 |}).
Proof.
  split; [reflexivity |]. split; [reflexivity |]. split; [| reflexivity].
  eexists. split; reflexivity.
Qed.

(** A response whose body does not parse still leaves its status in the
    result, next to the one error property. *)
Lemma broken_response_keeps_status :
  requestJson fixed_text (always (Responds broken_response)) plain_request
  = Returns (Fulfilled broken_status)
  /\ (assigned broken_status <= 1)%nat
  /\ statusCode broken_status = Some (status broken_response).
Proof.
  split; [reflexivity |].
  destruct (requestJson_status_invariant fixed_text
              (always (Responds broken_response)) plain_request _
              broken_status eq_refl eq_refl) as [Hone Hstatus].
  split; [exact Hone |].
  exact (Hstatus broken_response eq_refl).
Defined.

(** C9 as stated fails: [timeoutMs: 5000] leaves the delay at 10000. *)
Lemma timeoutMs_is_ignored :
  excess timeoutMs_request !! "timeoutMs" = Some (JsNumber 5000)
  /\ exists call,
      request_setup fixed_text timeoutMs_request = inr call
      /\ timer_delay call = JsNumber 10000.
Proof.
  split; [reflexivity |].
  eexists. split; reflexivity.
Qed.

Lemma timeout_5000_is_used :
  exists call,
    request_setup fixed_text timeout_request = inr call
    /\ timer_delay call = JsNumber 5000.
Proof.
  eexists. split; [reflexivity |].
  destruct (timer_delay_from_timeout fixed_text timeout_request _ eq_refl)
    as [Hdelay _].
  rewrite Hdelay. reflexivity.
Defined.

Lemma falsy_bodies_not_attached :
  (exists call,
      request_setup fixed_text (post_with (JsNumber 0)) = inr call
      /\ RequestInit.body (fetch_params call) = None)
  /\ (exists call,
        request_setup fixed_text (post_with (JsString "")) = inr call
        /\ RequestInit.body (fetch_params call) = None)
  /\ (exists call,
        request_setup fixed_text (post_with (JsBool false)) = inr call
        /\ RequestInit.body (fetch_params call) = None).
Proof.
  split; [| split]; eexists; (split; [reflexivity |]).
  - refine (falsy_body_not_attached fixed_text (post_with (JsNumber 0)) _ _
              eq_refl eq_refl _ eq_refl); discriminate.
  - refine (falsy_body_not_attached fixed_text (post_with (JsString "")) _ _
              eq_refl eq_refl _ eq_refl); discriminate.
  - refine (falsy_body_not_attached fixed_text (post_with (JsBool false)) _ _
              eq_refl eq_refl _ eq_refl); discriminate.
Defined.

(** * Further instances *)

(** A failure of [fetch] itself, which rejects with a [TypeError], is
    reported in [errorData] and not as a network error. *)
Lemma fetch_failure_in_errorData :
  requestJson fixed_text (always (Fails TypeError)) plain_request
  = Returns
      (Fulfilled
         {| data := None; errorData := Some (Value TypeError);
            networkError := None; statusCode := None |}).
Proof.
  exact (requestJson_transport_failure fixed_text (always (Fails TypeError))
           plain_request _ TypeError eq_refl eq_refl).
Defined.

(** Status 200 with a body that is not JSON. *)
Lemma unparsable_200_is_an_error :
  requestJson fixed_text (always (Responds html_response)) plain_request
  = Returns
      (Fulfilled
         {| data := None; errorData := Some (Value (JsError "SyntaxError"));
            networkError := None; statusCode := Some 200 |}).
Proof.
  exact (requestJson_unparsable_body fixed_text
           (always (Responds html_response)) plain_request _ html_response
           (JsError "SyntaxError") eq_refl eq_refl eq_refl eq_refl).
Defined.

Lemma not_found_in_errorData :
  requestJson fixed_text (always (Responds not_found_response)) plain_request
  = Returns (Fulfilled not_found_status).
Proof.
  exact (requestJson_rejected_status fixed_text
           (always (Responds not_found_response)) plain_request _
           not_found_response _ eq_refl eq_refl eq_refl eq_refl eq_refl).
Defined.

(** The same unparsable response is a success when [jsonResponse] is off. *)
Lemma raw_200_is_data :
  requestJson fixed_text (always (Responds html_response)) raw_request
  = Returns
      (Fulfilled
         {| data := Some (Raw html_response); errorData := None;
            networkError := None; statusCode := Some 200 |}).
Proof.
  exact (requestJson_raw_response fixed_text (always (Responds html_response))
           raw_request _ html_response eq_refl eq_refl eq_refl).
Defined.


Lemma timeout_assigns_one :
  assigned timeout_status = 1%nat.
Proof.
  exact (requestJson_exactly_one fixed_text (always Hangs) plain_request
           timeout_status eq_refl).
Defined.

Lemma status_404_from_response :
  exists call r,
    request_setup fixed_text plain_request = inr call
    /\ always (Responds not_found_response) (fetch_url call) (fetch_params call)
       = Responds r
    /\ status r = 404.
Proof.
  exact (requestJson_statusCode_origin fixed_text
           (always (Responds not_found_response)) plain_request
           not_found_status 404 eq_refl eq_refl).
Defined.

Lemma timeout_from_timer :
  (JsString "timeout" = JsString "timeout" \/ JsString "timeout" = JsString "other")
  /\ exists call,
      request_setup fixed_text plain_request = inr call
      /\ ((always Hangs (fetch_url call) (fetch_params call) = Hangs
           /\ JsString "timeout" = JsString "timeout")
          \/ always Hangs (fetch_url call) (fetch_params call)
             = Fails (JsString "timeout")
          \/ (exists r,
                always Hangs (fetch_url call) (fetch_params call) = Responds r
                /\ json r = Rejected (JsString "timeout"))).
Proof.
  exact (requestJson_networkError_origin fixed_text (always Hangs) plain_request
           timeout_status (JsString "timeout") eq_refl eq_refl).
Defined.

Lemma created_is_success :
  exists call r,
    request_setup fixed_text post_request = inr call
    /\ always (Responds created_response) (fetch_url call) (fetch_params call)
       = Responds r
    /\ isValidStatusCode (status r) (validation_of (processedParams post_request))
       = true
    /\ ((truthy (Processed.jsonResponse (processedParams post_request)) = true
         /\ exists j,
             json r = Fulfilled j
             /\ Value (JsObject [("ok", JsBool true)]) = Value j)
        \/ (truthy (Processed.jsonResponse (processedParams post_request)) = false
            /\ Value (JsObject [("ok", JsBool true)]) = Raw r))
    /\ created_status
       = {| data := Some (Value (JsObject [("ok", JsBool true)]));
            errorData := None; networkError := None;
            statusCode := Some (status r) |}.
Proof.
  exact (requestJson_data_means_success fixed_text
           (always (Responds created_response)) post_request created_status
           (Value (JsObject [("ok", JsBool true)])) eq_refl eq_refl).
Defined.

Lemma created_in_default_range :
  requestJson fixed_text (always (Responds created_response)) plain_request
  = Returns (Fulfilled created_status).
Proof.
  exact (requestJson_default_range fixed_text
           (always (Responds created_response)) plain_request _
           created_response _ eq_refl eq_refl eq_refl eq_refl eq_refl).
Defined.

(** [validStatusCodeStart: undefined] turns a 200 into an error. *)
Lemma undefined_start_rejects_200 :
  requestJson fixed_text (always (Responds ok_response)) undefined_start_request
  = Returns
      (Fulfilled
         {| data := None; errorData := Some (Value (JsObject [("ok", JsBool true)]));
            networkError := None; statusCode := Some 200 |}).
Proof.
  refine (requestJson_falsy_bound fixed_text (always (Responds ok_response))
            undefined_start_request _ ok_response _
            eq_refl eq_refl eq_refl eq_refl eq_refl _).
  left. exists undefined. split; reflexivity.
Defined.
